(** * Cloth recyclability analysis: a shallow embedding of
      [cloth_recyclability_gui.py] and the properties of its rule engine.

    Python floats are IEEE 754 binary64 numbers; they are modelled by Rocq's
    primitive floats, which are the same format with the same
    round-to-nearest-even arithmetic.  Python strings are modelled by their
    UTF-8 bytes. *)

From Stdlib Require Import ZArith List Sorted String Ascii Bool Lia.
From Stdlib Require Import Floats Uint63 Strings.Byte DecimalString.
Import ListNotations.

Set Warnings "-inexact-float".

Local Open Scope string_scope.
Local Open Scope Z_scope.

(** ** Python values, exceptions and the exception monad *)

Module Py.

(** The exceptions the program can meet.  [ValueError] is raised by
    [run_analysis] itself, [KeyError] by a dict lookup, [NameError] by a read
    of an unassigned global, [OSError] by [Image.open] (a missing file, or
    PIL's [UnidentifiedImageError], which derives from it) and [Sqlite3Error]
    by the database, in [cur.execute] or in [conn.commit]. *)
Inductive exn : Type :=
| ValueError
| KeyError (key : string)
| NameError (name : string)
| OSError (path : string)
| Sqlite3Error.

Inductive result (A : Type) : Type :=
| Ok (a : A)
| Raise (e : exn).
Arguments Ok {A} a.
Arguments Raise {A} e.

Definition bind {A B} (r : result A) (k : A -> result B) : result B :=
  match r with
  | Ok a => k a
  | Raise e => Raise e
  end.

(** [float(n)] for a Python int that fits a machine word; exact below 2^53. *)
Definition int_to_float (n : Z) : float := of_uint63 (Uint63.of_Z n).

(** Python's [x >= y] on floats (false as soon as one side is NaN). *)
Definition ge (x y : float) : bool := (y <=? x)%float.

(** One decimal digit, and [n] zero-padded to two digits. *)
Definition digit (n : Z) : ascii := ascii_of_N (Z.to_N (48 + n mod 10)).
Definition pad2 (n : Z) : string :=
  String (digit (n / 10)) (String (digit n) EmptyString).

(** [str(n)] for a non-negative int. *)
Definition str_int (n : Z) : string :=
  NilZero.string_of_uint (N.to_uint (Z.to_N n)).

Definition sign_prefix (s : bool) : string := if s then "-" else "".

(** [format(x, ".2f")]: the exact binary value of [x], correctly rounded
    (ties to even) to two decimals. *)
Definition format_2f (x : float) : string :=
  match Prim2SF x with
  | S754_nan => "nan"
  | S754_infinity s => sign_prefix s ++ "inf"
  | S754_zero s => sign_prefix s ++ "0.00"
  | S754_finite s m e =>
      let n := Z.pos m * 100 in
      let q :=
        if 0 <=? e then n * 2 ^ e
        else
          let d := 2 ^ (- e) in
          let q0 := n / d in
          let r := n mod d in
          if (d <? 2 * r) || ((d =? 2 * r) && Z.odd q0) then q0 + 1 else q0 in
      sign_prefix s ++ str_int (q / 100) ++ "." ++ pad2 (q mod 100)
  end.

(** A naive [datetime.datetime] value. *)
Record datetime : Type := {
  year : Z; month : Z; day : Z;
  hour : Z; minute : Z; second : Z; microsecond : Z
}.

(** The ranges [datetime] keeps its fields in, for a four-digit year. *)
Definition valid_datetime (d : datetime) : Prop :=
  1000 <= year d <= 9999 /\ 1 <= month d <= 12 /\ 1 <= day d <= 31 /\
  0 <= hour d <= 23 /\ 0 <= minute d <= 59 /\ 0 <= second d <= 59.

(** [d.strftime("%Y-%m-%d %H:%M:%S")]; [%Y] is the plain decimal year. *)
Definition strftime (d : datetime) : string :=
  str_int (year d) ++ "-" ++ pad2 (month d) ++ "-" ++ pad2 (day d) ++ " " ++
  pad2 (hour d) ++ ":" ++ pad2 (minute d) ++ ":" ++ pad2 (second d).

End Py.
Import Py.

Declare Scope py_scope.
Notation "x <- c ;; k" := (Py.bind c (fun x => k))
  (at level 61, c at next level, right associativity) : py_scope.
Notation "x >=? y" := (Py.ge x y) (at level 70, no associativity) : float_scope.
Local Open Scope py_scope.

(** ** The database: table [analysis_history] *)

Record row : Type := {
  id : Z;
  textile : string;
  recycle_percent : float;
  condition : string;
  carbon_impact : float;
  verdict : string;
  timestamp : string
}.

(** A table with an [INTEGER PRIMARY KEY AUTOINCREMENT] key: its rows in
    insertion order and the largest key it ever gave out (SQLite's
    [sqlite_sequence] entry). *)
Record table : Type := {
  rows : list row;
  seq : Z
}.

(** The database file: the table is there or not. *)
Definition database : Type := option table.

Definition empty_table : table := {| rows := []; seq := 0 |}.

(** [CREATE TABLE IF NOT EXISTS analysis_history (...)]. *)
Definition create_table_if_not_exists (db : database) : database :=
  match db with
  | Some t => Some t
  | None => Some empty_table
  end.

Definition max_rowid (rs : list row) : Z :=
  fold_right (fun r m => Z.max (id r) m) 0 rs.

(** [INSERT INTO analysis_history (textile, recycle_percent, condition,
    carbon_impact, verdict, timestamp) VALUES (?,?,?,?,?,?)]: the key is one
    more than the largest key the table has or ever had. *)
Definition insert_row (t : table)
    (tx : string) (rp : float) (cond : string) (ci : float)
    (vd : string) (ts : string) : table :=
  let rowid := Z.max (seq t) (max_rowid (rows t)) + 1 in
  {| rows := rows t ++
       [ {| id := rowid; textile := tx; recycle_percent := rp;
            condition := cond; carbon_impact := ci; verdict := vd;
            timestamp := ts |} ];
     seq := rowid |}.

(** ** Textile data *)

Record profile : Type := {
  base : Z;
  carbon : float
}.

Definition TEXTILE_DATA : list (string * profile) :=
  [ ("Cotton",    {| base := 80; carbon := 1.5 |});
    ("Linen",     {| base := 75; carbon := 1.4 |});
    ("Silk",      {| base := 65; carbon := 2.0 |});
    ("Wool",      {| base := 70; carbon := 2.2 |});
    ("Polyester", {| base := 25; carbon := 4.5 |});
    ("Nylon",     {| base := 20; carbon := 4.2 |});
    ("Acrylic",   {| base := 15; carbon := 4.8 |});
    ("Elastane",  {| base := 10; carbon := 5.0 |}) ].

(** [d[key]] on a dict given by its items. *)
Fixpoint dict_get {V : Type} (d : list (string * V)) (key : string)
  : result V :=
  match d with
  | [] => Raise (KeyError key)
  | (k, v) :: d' => if String.eqb k key then Ok v else dict_get d' key
  end.

(** ** The outside world *)

(** An array of 8-bit luminance values, row by row, as a file's pixel data
    decodes in mode "L". *)
Definition raster : Type := list (list byte).

Definition pixel_sum (px : raster) : Z :=
  fold_right (fun r acc => fold_right (fun p a => Z.of_N (Byte.to_N p) + a) acc r) 0 px.

Definition pixel_count (px : raster) : Z :=
  fold_right (fun r acc => Z.of_nat (List.length r) + acc) 0 px.

(** What the database does with the two statements of one write: it takes
    both, or [cur.execute] raises, or [cur.execute] goes through and
    [conn.commit] raises. *)
Inductive storage_outcome : Type :=
| Accepted
| ExecuteRaises
| CommitRaises.

(** What one run of the program reads from outside: the pixel data each file
    holds ([None] for a path that is missing or holds no image), the reading
    of the local clock, and what the database does with a write. *)
Record world : Type := {
  file : string -> option raster;
  now : datetime;
  storage : storage_outcome
}.

(** [Image.open(path).convert("L")]: [None] when PIL raises, which it does
    for a path that is missing or holds no image, and for an image without
    pixels (Pillow refuses a zero-sized image when it opens it). *)
Definition open_L (w : world) (path : string) : option raster :=
  match file w path with
  | Some px => if 0 <? pixel_count px then Some px else None
  | None => None
  end.

(** The database takes the write: both statements succeed. *)
Definition storage_ok (w : world) : bool :=
  match storage w with
  | Accepted => true
  | _ => false
  end.

(** ** Image analysis *)

(** [np.array(img).mean()]: the float64 sum of the pixels over their number.
    The sum of 8-bit values is an integer, so every partial sum is exact
    while it stays below 2^53. *)
Definition np_mean (px : raster) : float :=
  (int_to_float (pixel_sum px) / int_to_float (pixel_count px))%float.

(** The branches of [analyze_image] on the brightness. *)
Definition classify (brightness : float) : float * string :=
  if (brightness >=? 170)%float then (1.0%float, "Excellent")
  else if (brightness >=? 120)%float then (0.8%float, "Good")
  else if (brightness >=? 80)%float then (0.6%float, "Worn")
  else (0.4%float, "Poor").

Definition analyze_image (w : world) (image_path : string)
  : result (float * string) :=
  match open_L w image_path with
  | None => Raise (OSError image_path)
  | Some pixels =>
      let brightness := np_mean pixels in
      Ok (classify brightness)
  end.

(** ** The rule engine *)

Definition verdict_of (recycle_percent : float) : string :=
  if (recycle_percent >=? 60)%float then "✅ Recyclable & Sustainable"
  else if (recycle_percent >=? 35)%float then "⚠️ Partially Recyclable"
  else "❌ Not Recommended".

Definition ai_cloth_analysis (w : world) (textile : string) (image_path : string)
  : result (float * string * float * string) :=
  p <- dict_get TEXTILE_DATA textile ;;
  let base := base p in
  let carbon_rate := carbon p in
  fc <- analyze_image w image_path ;;
  let '(factor, condition) := fc in
  let recycle_percent := (int_to_float base * factor)%float in
  let carbon_impact := (recycle_percent * carbon_rate)%float in
  let verdict := verdict_of recycle_percent in
  Ok (recycle_percent, condition, carbon_impact, verdict).

(** ** The window and [run_analysis] *)

(** The mutable state the callbacks share: the combobox selection, the global
    [image_path] ([None] while no upload has assigned it), the [result]
    variable shown in the window, the table as [conn] sees it (the committed
    rows followed by the rows its open transaction has inserted), the table
    as the database file holds it (the committed rows only), and the error
    dialogs shown so far, latest first. *)
Record gui : Type := {
  textile_combo : string;
  image_path : option string;
  result_var : string;
  history : database;
  stored : database;
  errors_shown : list (string * string)
}.

(** The module-level code: connect, create the table if it is not there, and
    build the window with nothing selected. *)
Definition startup (db : database) : gui :=
  {| textile_combo := "";
     image_path := None;
     result_var := "";
     history := create_table_if_not_exists db;
     stored := create_table_if_not_exists db;
     errors_shown := [] |}.

(** Choosing a textile in the read-only combobox. *)
Definition select_textile (choice : string) (s : gui) : gui :=
  {| textile_combo := choice;
     image_path := image_path s;
     result_var := result_var s;
     history := history s;
     stored := stored s;
     errors_shown := errors_shown s |}.

(** [upload_image]: the global takes whatever the file dialog returned (the
    empty string when it was cancelled); the preview it then draws is left
    out. *)
Definition upload_image (chosen : string) (s : gui) : gui :=
  {| textile_combo := textile_combo s;
     image_path := Some chosen;
     result_var := result_var s;
     history := history s;
     stored := stored s;
     errors_shown := errors_shown s |}.

Definition nl : string := String "010"%char EmptyString.

(** The text [run_analysis] puts in [result]. *)
Definition result_message (textile condition : string) (recycle carbon : float)
    (verdict : string) : string :=
  "AI Analysis Result" ++ nl ++ nl ++
  "Textile Type        : " ++ textile ++ nl ++
  "Cloth Condition     : " ++ condition ++ nl ++
  "Recyclability       : " ++ format_2f recycle ++ "%" ++ nl ++
  "Carbon Impact       : " ++ format_2f carbon ++ nl ++ nl ++
  "Final Verdict       : " ++ verdict ++ nl ++ nl ++
  "AI Explanation:" ++ nl ++
  "The system analyzed cloth brightness and" ++ nl ++
  "applied sustainability rules automatically.".

Definition set_result (msg : string) (s : gui) : gui :=
  {| textile_combo := textile_combo s;
     image_path := image_path s;
     result_var := msg;
     history := history s;
     stored := stored s;
     errors_shown := errors_shown s |}.

Definition set_history (db : database) (s : gui) : gui :=
  {| textile_combo := textile_combo s;
     image_path := image_path s;
     result_var := result_var s;
     history := db;
     stored := stored s;
     errors_shown := errors_shown s |}.

(** A successful [conn.commit()]: the file takes the table as [conn] sees
    it. *)
Definition set_stored (s : gui) : gui :=
  {| textile_combo := textile_combo s;
     image_path := image_path s;
     result_var := result_var s;
     history := history s;
     stored := history s;
     errors_shown := errors_shown s |}.

Definition showerror (title message : string) (s : gui) : gui :=
  {| textile_combo := textile_combo s;
     image_path := image_path s;
     result_var := result_var s;
     history := history s;
     stored := stored s;
     errors_shown := (title, message) :: errors_shown s |}.

(** [cur.execute("INSERT ...", values)] on the table as [conn] sees it: it
    raises, inserting nothing, when the table is missing or the database
    refuses the statement; otherwise the row is inserted in the open
    transaction of [conn]. *)
Definition execute_insert (w : world) (db : database)
    (tx : string) (rp : float) (cond : string) (ci : float) (vd ts : string)
  : result database :=
  match db with
  | None => Raise Sqlite3Error
  | Some t =>
      match storage w with
      | ExecuteRaises => Raise Sqlite3Error
      | _ => Ok (Some (insert_row t tx rp cond ci vd ts))
      end
  end.

(** [conn.commit()]: the file takes every row [conn] has inserted since its
    last commit.  When it raises, nothing reaches the file and, as nothing
    rolls back, the inserted rows stay in the open transaction. *)
Definition conn_commit (w : world) (s : gui) : result unit * gui :=
  match storage w with
  | CommitRaises => (Raise Sqlite3Error, s)
  | _ => (Ok tt, set_stored s)
  end.

(** The body of the [try] block: the outcome, and the state as the statements
    run before an exception left it. *)
Definition run_analysis_try (w : world) (s : gui) : result unit * gui :=
  let textile := textile_combo s in
  if String.eqb textile "" then (Raise ValueError, s)
  else
    match image_path s with
    | None => (Raise (NameError "image_path"), s)
    | Some path =>
        if String.eqb path "" then (Raise ValueError, s)
        else
          match ai_cloth_analysis w textile path with
          | Raise e => (Raise e, s)
          | Ok (recycle, condition, carbon, verdict) =>
              let s1 :=
                set_result (result_message textile condition recycle carbon verdict) s in
              match execute_insert w (history s1) textile recycle condition
                      carbon verdict (strftime (now w)) with
              | Raise e => (Raise e, s1)
              | Ok db => conn_commit w (set_history db s1)
              end
          end
    end.

(** The state once the result is set and the row is inserted, before the
    commit. *)
Definition after_insert (w : world) (s : gui) (t : table)
    (rp : float) (c : string) (ci : float) (v : string) : gui :=
  set_history
    (Some (insert_row t (textile_combo s) rp c ci v (strftime (now w))))
    (set_result (result_message (textile_combo s) c rp ci v) s).

(** The title and the text of the one error dialog. *)
Definition input_error : string * string :=
  ("Input Error", "Please select textile type and upload an image").

(** [run_analysis]: the bare [except] turns every exception into one dialog. *)
Definition run_analysis (w : world) (s : gui) : gui :=
  match run_analysis_try w s with
  | (Ok _, s') => s'
  | (Raise _, s') => showerror (fst input_error) (snd input_error) s'
  end.

(** ** The timestamp layout *)

Definition is_digit (c : ascii) : bool :=
  let n := N_of_ascii c in (48 <=? n)%N && (n <=? 57)%N.

(** [shape pat s]: [s] has the length of [pat], a decimal digit wherever [pat]
    has the letter d, and the character of [pat] elsewhere. *)
Fixpoint shape (pat s : string) : bool :=
  match pat, s with
  | EmptyString, EmptyString => true
  | String p pat', String c s' =>
      (if Ascii.eqb p "d" then is_digit c else Ascii.eqb p c) && shape pat' s'
  | _, _ => false
  end.

(** The layout YYYY-MM-DD HH:MM:SS. *)
Definition timestamp_shape (s : string) : bool := shape "dddd-dd-dd dd:dd:dd" s.

(** The number a string of decimal digits writes. *)
Fixpoint read_digits (acc : Z) (s : string) : Z :=
  match s with
  | EmptyString => acc
  | String c s' => read_digits (10 * acc + (Z.of_N (N_of_ascii c) - 48)) s'
  end.

(** The six fields of a timestamp, read back from their columns. *)
Definition timestamp_fields (s : string) : list Z :=
  [ read_digits 0 (substring 0 4 s); read_digits 0 (substring 5 2 s);
    read_digits 0 (substring 8 2 s); read_digits 0 (substring 11 2 s);
    read_digits 0 (substring 14 2 s); read_digits 0 (substring 17 2 s) ].

(** ** Sessions *)

(** What the user can do in the window. *)
Inductive event : Type :=
| Select (choice : string)
| Upload (chosen : string)
| Analyse (w : world).

Definition handle (e : event) (s : gui) : gui :=
  match e with
  | Select choice => select_textile choice s
  | Upload chosen => upload_image chosen s
  | Analyse w => run_analysis w s
  end.

(** The window after a sequence of events, earliest first. *)
Definition session (es : list event) (s : gui) : gui :=
  fold_left (fun s e => handle e s) es s.

(** The integers [start], [start + 1], ..., [len] of them. *)
Fixpoint zrange (len : nat) (start : Z) : list Z :=
  match len with
  | O => []
  | S len' => start :: zrange len' (start + 1)
  end.

(** ** Concrete inputs used by the examples *)

(** An image of one row whose pixels are the given values. *)
Definition one_row (ps : list byte) : raster := [ps].

(** A world in which [garment.png] decodes to the given image and nothing else
    can be opened. *)
Definition world_with (px : raster) : world :=
  {| file := fun p => if String.eqb p "garment.png" then Some px else None;
     now := {| year := 2024; month := 3; day := 7;
               hour := 9; minute := 5; second := 2; microsecond := 123456 |};
     storage := Accepted |}.


Definition ready (tx : string) : gui :=
  upload_image "garment.png" (select_textile tx (startup None)).

(** ** The rest of the window *)

(** The values the read-only combobox offers: [list(TEXTILE_DATA.keys())]. *)
Definition combobox_values : list string := map fst TEXTILE_DATA.

(** The picture [img_display] holds: the file at [source], opened and resized
    to 220 by 220. *)
Inductive picture : Type :=
| Thumbnail (source : string).

(** The window with its preview label: the state the callbacks share, the
    global [img_display] ([None] while it is unassigned) and the text of
    [image_label]. *)
Record window : Type := {
  shared : gui;
  img_display : option picture;
  label_text : string
}.

Definition main_window (db : database) : window :=
  {| shared := startup db;
     img_display := None;
     label_text := "📷 Click to Upload Image" |}.

(** [upload_image] with its preview, for the path [chosen] the file dialog
    returned.  The global path is assigned first; for a non-empty path the
    file is then opened and resized, which raises when it does not decode (as
    [convert] does in [analyze_image]: both load the file), and the exception
    leaves the callback with the path already assigned. *)
Definition upload_image_callback (w : world) (chosen : string) (win : window)
  : result unit * window :=
  let win1 := {| shared := upload_image chosen (shared win);
                 img_display := img_display win;
                 label_text := label_text win |} in
  if String.eqb chosen "" then (Ok tt, win1)
  else
    match open_L w chosen with
    | None => (Raise (OSError chosen), win1)
    | Some _ =>
        (Ok tt,
         {| shared := shared win1;
            img_display := Some (Thumbnail chosen);
            label_text := "" |})
    end.

(** The button: [run_analysis] on the shared state; the preview is not
    touched. *)
Definition run_analysis_callback (w : world) (win : window) : window :=
  {| shared := run_analysis w (shared win);
     img_display := img_display win;
     label_text := label_text win |}.


(** [int(x)] for a finite float: its value truncated towards zero. *)
Definition int_of_float (x : float) : Z :=
  match Prim2SF x with
  | S754_finite s m e =>
      let a := if 0 <=? e then Z.pos m * 2 ^ e else Z.pos m / 2 ^ (- e) in
      if s then - a else a
  | _ => 0
  end.

(** The keys of a table are 1, 2, ... in row order, and the counter is the
    last of them. *)
Definition numbered (t : table) : Prop :=
  map id (rows t) = zrange (List.length (rows t)) 1 /\
  seq t = Z.of_nat (List.length (rows t)).

(** The largest key a table has or ever gave out. *)
Definition high_key (t : table) : Z := Z.max (seq t) (max_rowid (rows t)).

(** ** The order on binary64 numbers *)

Ltac order_cases :=
  repeat match goal with
         | |- context [Pos.compare_cont Eq ?a ?b] =>
             change (Pos.compare_cont Eq a b) with (a ?= b)%positive
         | H : context [Pos.compare_cont Eq ?a ?b] |- _ =>
             change (Pos.compare_cont Eq a b) with (a ?= b)%positive in H
         | |- context [(?a ?= ?b)%Z] => destruct (Z.compare_spec a b); subst
         | |- context [(?a ?= ?b)%positive] => destruct (Pos.compare_spec a b); subst
         | H : context [(?a ?= ?b)%Z] |- _ => destruct (Z.compare_spec a b); subst
         | H : context [(?a ?= ?b)%positive] |- _ => destruct (Pos.compare_spec a b); subst
         end;
  simpl in *; try discriminate; try reflexivity; try lia.

Lemma SFleb_trans (x y z : spec_float) :
  SFleb x y = true -> SFleb y z = true -> SFleb x z = true.
Proof.
  unfold SFleb.
  destruct x as [[|]|[|]| |[|] m1 e1], y as [[|]|[|]| |[|] m2 e2],
           z as [[|]|[|]| |[|] m3 e3];
    simpl; intros Hxy Hyz; try discriminate; try reflexivity; order_cases.
Qed.

Lemma SFleb_ltb_trans (x y z : spec_float) :
  SFleb x y = true -> SFltb y z = true -> SFltb x z = true.
Proof.
  unfold SFleb, SFltb.
  destruct x as [[|]|[|]| |[|] m1 e1], y as [[|]|[|]| |[|] m2 e2],
           z as [[|]|[|]| |[|] m3 e3];
    simpl; intros Hxy Hyz; try discriminate; try reflexivity; order_cases.
Qed.

Lemma float_leb_trans (x y z : float) :
  (x <=? y)%float = true -> (y <=? z)%float = true -> (x <=? z)%float = true.
Proof. rewrite !FloatAxioms.leb_spec. apply SFleb_trans. Qed.

Lemma float_leb_ltb_trans (x y z : float) :
  (x <=? y)%float = true -> (y <? z)%float = true -> (x <? z)%float = true.
Proof.
  rewrite !FloatAxioms.leb_spec, !FloatAxioms.ltb_spec. apply SFleb_ltb_trans.
Qed.

(** A number below [lo] is not at or above any [hi] that [lo] does not exceed. *)
Lemma below_not_ge (b lo hi : float) :
  (hi <? lo)%float = false -> (b <? lo)%float = true -> (b >=? hi)%float = false.
Proof.
  intros Hc Hb. unfold Py.ge. destruct (hi <=? b)%float eqn:E; [|reflexivity].
  rewrite (float_leb_ltb_trans _ _ _ E Hb) in Hc. discriminate.
Qed.

(** ** The pieces of the analysis *)

Lemma classify_cases (b : float) :
  classify b = (1.0%float, "Excellent") \/ classify b = (0.8%float, "Good") \/
  classify b = (0.6%float, "Worn") \/ classify b = (0.4%float, "Poor").
Proof.
  unfold classify.
  destruct (b >=? 170)%float; [now left|].
  destruct (b >=? 120)%float; [now right; left|].
  destruct (b >=? 80)%float; [now right; right; left|now right; right; right].
Qed.

Lemma classify_bands (b : float) :
  ((b >=? 170)%float = true -> classify b = (1.0%float, "Excellent")) /\
  ((b >=? 120)%float = true -> (b <? 170)%float = true ->
     classify b = (0.8%float, "Good")) /\
  ((b >=? 80)%float = true -> (b <? 120)%float = true ->
     classify b = (0.6%float, "Worn")) /\
  ((b <? 80)%float = true -> classify b = (0.4%float, "Poor")).
Proof.
  unfold classify. repeat split.
  - intros ->. reflexivity.
  - intros H1 H2. rewrite (below_not_ge b 170 170), H1 by easy. reflexivity.
  - intros H1 H2.
    rewrite (below_not_ge b 120 170), (below_not_ge b 120 120), H1 by easy.
    reflexivity.
  - intros H.
    rewrite (below_not_ge b 80 170), (below_not_ge b 80 120),
      (below_not_ge b 80 80) by easy.
    reflexivity.
Qed.

(** The brighter image never gets the smaller factor. *)
Lemma classify_monotone (b1 b2 : float) :
  (b1 <=? b2)%float = true ->
  In (fst (classify b1), fst (classify b2))
     [ (1.0, 1.0); (0.8, 1.0); (0.8, 0.8); (0.6, 1.0); (0.6, 0.8); (0.6, 0.6);
       (0.4, 1.0); (0.4, 0.8); (0.4, 0.6); (0.4, 0.4) ]%float.
Proof.
  intros H. unfold classify, Py.ge.
  destruct (170 <=? b1)%float eqn:A1.
  { rewrite (float_leb_trans _ _ _ A1 H). simpl. tauto. }
  destruct (120 <=? b1)%float eqn:B1.
  { rewrite (float_leb_trans _ _ _ B1 H). destruct (170 <=? b2)%float; simpl; tauto. }
  destruct (80 <=? b1)%float eqn:C1.
  { rewrite (float_leb_trans _ _ _ C1 H).
    destruct (170 <=? b2)%float; [simpl; tauto|].
    destruct (120 <=? b2)%float; simpl; tauto. }
  destruct (170 <=? b2)%float; [simpl; tauto|].
  destruct (120 <=? b2)%float; [simpl; tauto|].
  destruct (80 <=? b2)%float; simpl; tauto.
Qed.

Lemma dict_get_textile (key : string) (p : profile) :
  dict_get TEXTILE_DATA key = Ok p -> In (key, p) TEXTILE_DATA.
Proof.
  unfold TEXTILE_DATA. cbn [dict_get].
  repeat match goal with
         | |- context [String.eqb ?k key] =>
             destruct (String.eqb_spec k key) as [<-|_];
             [intros [= <-]; cbn [In]; tauto|]
         end.
  discriminate.
Qed.

(** What [ai_cloth_analysis] returns for a known textile and a readable image. *)
Lemma ai_cloth_analysis_ok (w : world) (tx path : string) (p : profile)
    (px : raster) :
  dict_get TEXTILE_DATA tx = Ok p -> open_L w path = Some px ->
  ai_cloth_analysis w tx path =
    Ok ((int_to_float (base p) * fst (classify (np_mean px)))%float,
        snd (classify (np_mean px)),
        (int_to_float (base p) * fst (classify (np_mean px)) * carbon p)%float,
        verdict_of (int_to_float (base p) * fst (classify (np_mean px)))%float).
Proof.
  intros Hd Ho. unfold ai_cloth_analysis, analyze_image. rewrite Hd, Ho. simpl.
  destruct (classify (np_mean px)). reflexivity.
Qed.

(** It returns only for a known textile and a readable image. *)
Lemma ai_cloth_analysis_inv (w : world) (tx path : string)
    (r : float * string * float * string) :
  ai_cloth_analysis w tx path = Ok r ->
  exists p px, dict_get TEXTILE_DATA tx = Ok p /\ open_L w path = Some px.
Proof.
  unfold ai_cloth_analysis, analyze_image.
  destruct (dict_get TEXTILE_DATA tx) as [p|e]; simpl; [|discriminate].
  destruct (open_L w path) as [px|]; simpl; [|discriminate].
  intros _. now exists p, px.
Qed.

(** ** The condition estimator *)

(** C1: for an image that decodes, with mean brightness [b]: [b >= 170] gives
    factor 1.0 and Excellent; [120 <= b < 170] gives 0.8 and Good;
    [80 <= b < 120] gives 0.6 and Worn; [b < 80] gives 0.4 and Poor.  Every
    lower bound is inclusive. *)
Theorem analyze_image_bands (w : world) (path : string) (px : raster) :
  open_L w path = Some px ->
  let b := np_mean px in
  ((b >=? 170)%float = true ->
     analyze_image w path = Ok (1.0%float, "Excellent")) /\
  ((b >=? 120)%float = true -> (b <? 170)%float = true ->
     analyze_image w path = Ok (0.8%float, "Good")) /\
  ((b >=? 80)%float = true -> (b <? 120)%float = true ->
     analyze_image w path = Ok (0.6%float, "Worn")) /\
  ((b <? 80)%float = true ->
     analyze_image w path = Ok (0.4%float, "Poor")).
Proof.
  intros Ho b. unfold analyze_image. rewrite Ho. fold b.
  destruct (classify_bands b) as (H1 & H2 & H3 & H4).
  repeat split; intros.
  - now rewrite H1.
  - now rewrite H2.
  - now rewrite H3.
  - now rewrite H4.
Qed.

(** Brightness exactly 170, 120 and 80 falls in the higher band; 79.5 is Poor. *)
Lemma analyze_image_bands_witness :
  analyze_image (world_with (one_row [xaa])) "garment.png" =
    Ok (1.0%float, "Excellent") /\
  analyze_image (world_with (one_row [x78])) "garment.png" =
    Ok (0.8%float, "Good") /\
  analyze_image (world_with (one_row [x50])) "garment.png" =
    Ok (0.6%float, "Worn") /\
  analyze_image (world_with (one_row [x4f; x50])) "garment.png" =
    Ok (0.4%float, "Poor").
Proof.
  split; [|split; [|split]].
  - apply (analyze_image_bands (world_with (one_row [xaa])) "garment.png"
             (one_row [xaa]) eq_refl); reflexivity.
  - apply (analyze_image_bands (world_with (one_row [x78])) "garment.png"
             (one_row [x78]) eq_refl); reflexivity.
  - apply (analyze_image_bands (world_with (one_row [x50])) "garment.png"
             (one_row [x50]) eq_refl); reflexivity.
  - apply (analyze_image_bands (world_with (one_row [x4f; x50])) "garment.png"
             (one_row [x4f; x50]) eq_refl); reflexivity.
Defined.

(** ** The verdict *)

(** The verdict the code returns for Cotton at brightness 200 is not the bare
    text "Recyclable & Sustainable", although the percentage is above 60. *)
Lemma verdict_text_counterexample :
  exists rp c ci v,
    ai_cloth_analysis (world_with (one_row [xc8])) "Cotton" "garment.png" =
      Ok (rp, c, ci, v) /\
    (rp >=? 60)%float = true /\
    v <> "Recyclable & Sustainable".
Proof.
  exists 80%float, "Excellent", 120%float, "✅ Recyclable & Sustainable".
  split; [reflexivity|]. split; [reflexivity|]. discriminate.
Qed.

(** C2 (amended): the verdict is a function of the percentage alone, with
    inclusive lower thresholds, and each verdict string is a glyph, a space
    and the verdict's name. *)
Theorem verdict_by_recycle_percent (w : world) (tx path : string)
    (rp ci : float) (c v : string) :
  ai_cloth_analysis w tx path = Ok (rp, c, ci, v) ->
  v = verdict_of rp /\
  ((rp >=? 60)%float = true -> v = "✅ Recyclable & Sustainable") /\
  ((rp >=? 35)%float = true -> (rp <? 60)%float = true ->
     v = "⚠️ Partially Recyclable") /\
  ((rp <? 35)%float = true -> v = "❌ Not Recommended").
Proof.
  intros H.
  destruct (ai_cloth_analysis_inv _ _ _ _ H) as (p & px & Hd & Ho).
  rewrite (ai_cloth_analysis_ok _ _ _ _ _ Hd Ho) in H.
  injection H as <- _ _ <-.
  set (r := (int_to_float (base p) * fst (classify (np_mean px)))%float).
  split; [reflexivity|]. unfold verdict_of. repeat split.
  - intros ->. reflexivity.
  - intros H1 H2. rewrite (below_not_ge r 60 60), H1 by easy. reflexivity.
  - intros H1.
    rewrite (below_not_ge r 35 60), (below_not_ge r 35 35) by easy. reflexivity.
Qed.

(** Wool at brightness 130: 56 percent lies in the middle band. *)
Lemma verdict_by_recycle_percent_witness :
  ai_cloth_analysis (world_with (one_row [x82])) "Wool" "garment.png" =
    Ok (56%float, "Good", 123.20000000000002%float, "⚠️ Partially Recyclable") /\
  "⚠️ Partially Recyclable" = verdict_of 56.
Proof.
  split; [reflexivity|].
  exact (proj1 (verdict_by_recycle_percent (world_with (one_row [x82])) "Wool"
                  "garment.png" 56%float 123.20000000000002%float "Good" _
                  eq_refl)).
Defined.

(** ** [run_analysis] *)

(** A run in which nothing raises: the result is shown, one row is inserted
    and the commit takes it to the file. *)
Lemma run_analysis_success (w : world) (s : gui) (t : table) (path : string)
    (rp ci : float) (c v : string) :
  textile_combo s <> "" -> image_path s = Some path -> path <> "" ->
  ai_cloth_analysis w (textile_combo s) path = Ok (rp, c, ci, v) ->
  history s = Some t -> storage_ok w = true ->
  run_analysis w s = set_stored (after_insert w s t rp c ci v).
Proof.
  intros Ht Hp Hne Ha Hh Hs. unfold run_analysis, run_analysis_try.
  destruct (String.eqb_spec (textile_combo s) ""); [contradiction|].
  rewrite Hp. destruct (String.eqb_spec path ""); [contradiction|].
  rewrite Ha. unfold execute_insert, conn_commit, storage_ok in *. simpl.
  rewrite Hh. destruct (storage w); try discriminate. reflexivity.
Qed.


(** Every run either raises before a row is inserted, and then leaves both
    tables alone and shows the dialog, or inserts its row and goes on to the
    commit. *)
Lemma run_analysis_cases (w : world) (s : gui) :
  (exists e s', run_analysis_try w s = (Raise e, s') /\
     history s' = history s /\ stored s' = stored s /\
     run_analysis w s = showerror (fst input_error) (snd input_error) s') \/
  (exists t path rp ci c v,
     textile_combo s <> "" /\ image_path s = Some path /\ path <> "" /\
     ai_cloth_analysis w (textile_combo s) path = Ok (rp, c, ci, v) /\
     history s = Some t /\ storage w <> ExecuteRaises /\
     run_analysis_try w s = conn_commit w (after_insert w s t rp c ci v)).
Proof.
  unfold run_analysis, run_analysis_try.
  destruct (String.eqb_spec (textile_combo s) "") as [E|Ht].
  { left. now exists ValueError, s. }
  destruct (image_path s) as [path|] eqn:Hp.
  2:{ left. now exists (NameError "image_path"), s. }
  destruct (String.eqb_spec path "") as [E|Hne].
  { left. now exists ValueError, s. }
  destruct (ai_cloth_analysis w (textile_combo s) path)
    as [[[[rp c] ci] v]|e] eqn:Ha.
  2:{ left. now exists e, s. }
  unfold execute_insert. simpl.
  destruct (history s) as [t|] eqn:Hh.
  2:{ left. eexists Sqlite3Error, _. repeat split. simpl. now rewrite Hh. }
  destruct (storage w) eqn:Hs.
  2:{ left. eexists Sqlite3Error, _. repeat split. simpl. now rewrite Hh. }
  all: right; exists t, path, rp, ci, c, v; repeat split; auto; discriminate.
Qed.

(** ** The record *)

(** C3: what [ai_cloth_analysis] returns satisfies
    [recycle_percent = base * factor] with the factor of the image, one of
    1.0, 0.8, 0.6 and 0.4, and [carbon_impact = recycle_percent * carbon];
    the row [run_analysis] stores holds these very numbers, not rounded. *)
Theorem record_invariants (w : world) (tx path : string)
    (rp ci : float) (c v : string) :
  ai_cloth_analysis w tx path = Ok (rp, c, ci, v) ->
  (exists p f,
     dict_get TEXTILE_DATA tx = Ok p /\
     analyze_image w path = Ok (f, c) /\
     In f [1.0; 0.8; 0.6; 0.4]%float /\
     rp = (int_to_float (base p) * f)%float /\
     ci = (rp * carbon p)%float) /\
  (forall s t,
     textile_combo s = tx -> image_path s = Some path -> path <> "" ->
     history s = Some t -> storage_ok w = true ->
     exists k ts,
       history (run_analysis w s) =
         Some {| rows := rows t ++
                   [ {| id := k; textile := tx; recycle_percent := rp;
                        condition := c; carbon_impact := ci; verdict := v;
                        timestamp := ts |} ];
                 seq := k |}).
Proof.
  intros H. split.
  - destruct (ai_cloth_analysis_inv _ _ _ _ H) as (p & px & Hd & Ho).
    rewrite (ai_cloth_analysis_ok _ _ _ _ _ Hd Ho) in H.
    injection H as <- <- <- _.
    exists p, (fst (classify (np_mean px))). repeat split; auto.
    + unfold analyze_image. rewrite Ho. now destruct (classify (np_mean px)).
    + destruct (classify_cases (np_mean px)) as [E|[E|[E|E]]]; rewrite E;
        simpl; tauto.
  - intros s t <- Hp Hne Hh Hs.
    assert (Ht : textile_combo s <> "").
    { intros E. rewrite E in H. discriminate H. }
    rewrite (run_analysis_success w s t path rp ci c v Ht Hp Hne H Hh Hs).
    simpl. unfold insert_row. eauto.
Qed.

(** Linen at brightness 130, run from a fresh database. *)
Lemma record_invariants_witness :
  (exists p f,
     dict_get TEXTILE_DATA "Linen" = Ok p /\
     analyze_image (world_with (one_row [x82])) "garment.png" = Ok (f, "Good") /\
     In f [1.0; 0.8; 0.6; 0.4]%float /\
     60%float = (int_to_float (base p) * f)%float /\
     84%float = (60 * carbon p)%float) /\
  exists k ts,
    history (run_analysis (world_with (one_row [x82])) (ready "Linen")) =
      Some {| rows := [] ++
                [ {| id := k; textile := "Linen"; recycle_percent := 60;
                     condition := "Good"; carbon_impact := 84;
                     verdict := "✅ Recyclable & Sustainable";
                     timestamp := ts |} ];
              seq := k |}.
Proof.
  destruct (record_invariants (world_with (one_row [x82])) "Linen" "garment.png"
              60%float 84%float "Good" "✅ Recyclable & Sustainable" eq_refl)
    as [H1 H2].
  split; [exact H1|].
  apply (H2 (ready "Linen") empty_table); try reflexivity. discriminate.
Defined.

(** ** The three scenarios *)

(** For Cotton at brightness 200 the verdict returned is not the bare text
    "Recyclable & Sustainable", and for Wool at brightness 130 the carbon
    impact returned is not the binary64 number nearest to 123.2. *)
Lemma scenario_counterexample :
  (np_mean (one_row [xc8]) = 200%float /\
   exists v,
     ai_cloth_analysis (world_with (one_row [xc8])) "Cotton" "garment.png" =
       Ok (80%float, "Excellent", 120%float, v) /\
     v <> "Recyclable & Sustainable") /\
  (np_mean (one_row [x82]) = 130%float /\
   exists ci,
     ai_cloth_analysis (world_with (one_row [x82])) "Wool" "garment.png" =
       Ok (56%float, "Good", ci, "⚠️ Partially Recyclable") /\
     ci <> 123.2%float).
Proof.
  split; (split; [reflexivity|]).
  - exists "✅ Recyclable & Sustainable". split; [reflexivity|discriminate].
  - exists 123.20000000000002%float. split; [reflexivity|].
    intros E. apply (f_equal Prim2SF) in E. vm_compute in E. discriminate E.
Qed.

(** C4 (amended): Cotton at brightness 200 gives factor 1.0, Excellent, 80,
    120 and the verdict string with its glyph; Polyester at 100 gives Worn,
    15, 67.5 and Not Recommended; Wool at 130 gives Good, 56, the binary64
    product 123.20000000000002 and Partially Recyclable.  At two decimals
    these numbers print as 80.00, 120.00, 15.00, 67.50, 56.00 and 123.20. *)
Theorem scenarios (w : world) (path : string) (px : raster) :
  open_L w path = Some px ->
  (np_mean px = 200%float ->
     analyze_image w path = Ok (1.0%float, "Excellent") /\
     ai_cloth_analysis w "Cotton" path =
       Ok (80%float, "Excellent", 120%float, "✅ Recyclable & Sustainable")) /\
  (np_mean px = 100%float ->
     analyze_image w path = Ok (0.6%float, "Worn") /\
     ai_cloth_analysis w "Polyester" path =
       Ok (15%float, "Worn", 67.5%float, "❌ Not Recommended")) /\
  (np_mean px = 130%float ->
     analyze_image w path = Ok (0.8%float, "Good") /\
     ai_cloth_analysis w "Wool" path =
       Ok (56%float, "Good", 123.20000000000002%float,
           "⚠️ Partially Recyclable")) /\
  map format_2f [80; 120; 15; 67.5; 56; 123.20000000000002]%float =
    ["80.00"; "120.00"; "15.00"; "67.50"; "56.00"; "123.20"].
Proof.
  intros Ho.
  split; [|split; [|split]]; [intros E; split ..|reflexivity];
    unfold ai_cloth_analysis, analyze_image; rewrite Ho, E; reflexivity.
Qed.

Lemma scenarios_witness :
  ai_cloth_analysis (world_with (one_row [xbe; xd2])) "Cotton" "garment.png" =
    Ok (80%float, "Excellent", 120%float, "✅ Recyclable & Sustainable") /\
  ai_cloth_analysis (world_with (one_row [x64])) "Polyester" "garment.png" =
    Ok (15%float, "Worn", 67.5%float, "❌ Not Recommended") /\
  ai_cloth_analysis (world_with [[x80; x84]; [x82; x82]]) "Wool" "garment.png" =
    Ok (56%float, "Good", 123.20000000000002%float, "⚠️ Partially Recyclable").
Proof.
  split; [|split].
  - apply (scenarios (world_with (one_row [xbe; xd2])) "garment.png"
             (one_row [xbe; xd2]) eq_refl); reflexivity.
  - apply (scenarios (world_with (one_row [x64])) "garment.png"
             (one_row [x64]) eq_refl); reflexivity.
  - apply (scenarios (world_with [[x80; x84]; [x82; x82]]) "garment.png"
             [[x80; x84]; [x82; x82]] eq_refl); reflexivity.
Defined.

(** ** Bounds and monotonicity of the percentage *)

Ltac split_in :=
  repeat match goal with
         | H : _ \/ _ |- _ => destruct H as [H|H]
         | H : False |- _ => destruct H
         | H : (_, _) = (_, _) |- _ => injection H as <- <-
         end.

Lemma textile_profiles (tx : string) (p : profile) :
  dict_get TEXTILE_DATA tx = Ok p ->
  In (base p) [80; 75; 65; 70; 25; 20; 15; 10].
Proof.
  intros H. apply dict_get_textile in H. simpl in H. split_in; simpl; tauto.
Qed.

(** Scaling by a baseline keeps the order of two factors. *)
Lemma scale_monotone (b : Z) (f1 f2 : float) :
  In b [80; 75; 65; 70; 25; 20; 15; 10] ->
  In (f1, f2)
     [ (1.0, 1.0); (0.8, 1.0); (0.8, 0.8); (0.6, 1.0); (0.6, 0.8); (0.6, 0.6);
       (0.4, 1.0); (0.4, 0.8); (0.4, 0.6); (0.4, 0.4) ]%float ->
  (int_to_float b * f1 <=? int_to_float b * f2)%float = true.
Proof.
  intros Hb Hf. simpl in Hb, Hf. split_in; subst; reflexivity.
Qed.

(** C6: for a fixed textile, the brighter of two images never gets the
    smaller percentage. *)
Theorem recycle_percent_monotone (w1 w2 : world) (tx path1 path2 : string)
    (p : profile) (px1 px2 : raster) :
  dict_get TEXTILE_DATA tx = Ok p ->
  open_L w1 path1 = Some px1 -> open_L w2 path2 = Some px2 ->
  (np_mean px1 <=? np_mean px2)%float = true ->
  exists rp1 c1 ci1 v1 rp2 c2 ci2 v2,
    ai_cloth_analysis w1 tx path1 = Ok (rp1, c1, ci1, v1) /\
    ai_cloth_analysis w2 tx path2 = Ok (rp2, c2, ci2, v2) /\
    (rp1 <=? rp2)%float = true.
Proof.
  intros Hd H1 H2 Hle.
  rewrite (ai_cloth_analysis_ok _ _ _ _ _ Hd H1),
    (ai_cloth_analysis_ok _ _ _ _ _ Hd H2).
  do 8 eexists. split; [reflexivity|]. split; [reflexivity|].
  apply scale_monotone.
  - exact (textile_profiles _ _ Hd).
  - exact (classify_monotone _ _ Hle).
Qed.

(** Silk, a dark image (brightness 60) against a bright one (brightness 200). *)
Lemma recycle_percent_monotone_witness :
  exists rp1 c1 ci1 v1 rp2 c2 ci2 v2,
    ai_cloth_analysis (world_with (one_row [x3c])) "Silk" "garment.png" =
      Ok (rp1, c1, ci1, v1) /\
    ai_cloth_analysis (world_with (one_row [xc8])) "Silk" "garment.png" =
      Ok (rp2, c2, ci2, v2) /\
    (rp1 <=? rp2)%float = true.
Proof.
  apply (recycle_percent_monotone (world_with (one_row [x3c]))
           (world_with (one_row [xc8])) "Silk" "garment.png" "garment.png"
           {| base := 65; carbon := 2.0 |} (one_row [x3c]) (one_row [xc8]));
    reflexivity.
Defined.

(** For a known textile and a readable image the analysis returns, with one of
    the four factor and condition pairs. *)
Lemma ai_cloth_analysis_total (w : world) (tx path : string) (p : profile)
    (px : raster) :
  dict_get TEXTILE_DATA tx = Ok p -> open_L w path = Some px ->
  exists f c,
    In (f, c) [ (1.0, "Excellent"); (0.8, "Good"); (0.6, "Worn");
                (0.4, "Poor") ]%float /\
    ai_cloth_analysis w tx path =
      Ok ((int_to_float (base p) * f)%float, c,
          (int_to_float (base p) * f * carbon p)%float,
          verdict_of (int_to_float (base p) * f)%float).
Proof.
  intros Hd Ho. rewrite (ai_cloth_analysis_ok _ _ _ _ _ Hd Ho).
  destruct (classify (np_mean px)) as [f c] eqn:E. exists f, c.
  split; [|reflexivity].
  destruct (classify_cases (np_mean px)) as [E'|[E'|[E'|E']]];
    rewrite E' in E; injection E as <- <-; simpl; tauto.
Qed.

(** C9: for Polyester, Nylon, Acrylic and Elastane, whatever the image, the
    percentage is at most 25 and the verdict is Not Recommended. *)
Theorem synthetic_not_recommended (w : world) (tx path : string) (px : raster) :
  In tx ["Polyester"; "Nylon"; "Acrylic"; "Elastane"] ->
  open_L w path = Some px ->
  exists rp c ci,
    ai_cloth_analysis w tx path = Ok (rp, c, ci, "❌ Not Recommended") /\
    (rp <=? 25)%float = true /\
    (rp <? 35)%float = true.
Proof.
  intros Hin Ho.
  assert (exists p, dict_get TEXTILE_DATA tx = Ok p /\ In (base p) [25; 20; 15; 10])
    as (p & Hd & Hb).
  { simpl in Hin. split_in; subst; eexists; (split; [reflexivity|]);
      simpl; tauto. }
  destruct (ai_cloth_analysis_total _ _ _ _ _ Hd Ho) as (f & c & Hf & ->).
  simpl in Hb, Hf.
  split_in; rewrite <- Hb; do 3 eexists; (split; [|split]); reflexivity.
Qed.

(** Polyester under the brightest possible image. *)
Lemma synthetic_not_recommended_witness :
  exists rp c ci,
    ai_cloth_analysis (world_with (one_row [xff])) "Polyester" "garment.png" =
      Ok (rp, c, ci, "❌ Not Recommended") /\
    (rp <=? 25)%float = true /\
    (rp <? 35)%float = true.
Proof.
  apply (synthetic_not_recommended (world_with (one_row [xff])) "Polyester"
           "garment.png" (one_row [xff])).
  - simpl. tauto.
  - reflexivity.
Defined.

(** C10: for every known textile and every image, the percentage lies between
    4 and 80, both included. *)
Theorem recycle_percent_range (w : world) (tx path : string) (p : profile)
    (px : raster) :
  dict_get TEXTILE_DATA tx = Ok p -> open_L w path = Some px ->
  exists rp c ci v,
    ai_cloth_analysis w tx path = Ok (rp, c, ci, v) /\
    (4 <=? rp)%float = true /\ (rp <=? 80)%float = true.
Proof.
  intros Hd Ho.
  destruct (ai_cloth_analysis_total _ _ _ _ _ Hd Ho) as (f & c & Hf & ->).
  pose proof (textile_profiles _ _ Hd) as Hb.
  simpl in Hb, Hf.
  split_in; rewrite <- Hb; do 4 eexists; (split; [|split]); reflexivity.
Qed.

(** Elastane under a black image reaches 4; Cotton under a white one, 80. *)
Lemma recycle_percent_range_witness :
  (exists rp c ci v,
     ai_cloth_analysis (world_with (one_row [x00])) "Elastane" "garment.png" =
       Ok (rp, c, ci, v) /\
     (4 <=? rp)%float = true /\ (rp <=? 80)%float = true) /\
  ai_cloth_analysis (world_with (one_row [x00])) "Elastane" "garment.png" =
    Ok (4%float, "Poor", 20%float, "❌ Not Recommended") /\
  ai_cloth_analysis (world_with (one_row [xff])) "Cotton" "garment.png" =
    Ok (80%float, "Excellent", 120%float, "✅ Recyclable & Sustainable").
Proof.
  split; [|split; reflexivity].
  apply (recycle_percent_range (world_with (one_row [x00])) "Elastane"
           "garment.png" {| base := 10; carbon := 5.0 |} (one_row [x00]));
    reflexivity.
Defined.

(** ** The history log *)

(** The [try] block touches neither the selection, nor the global path, nor
    the list of dialogs. *)
Lemma run_analysis_try_frame (w : world) (s s' : gui) (r : result unit) :
  run_analysis_try w s = (r, s') ->
  textile_combo s' = textile_combo s /\ image_path s' = image_path s /\
  errors_shown s' = errors_shown s.
Proof.
  unfold run_analysis_try.
  destruct (String.eqb (textile_combo s) ""); [now intros [= <- <-]|].
  destruct (image_path s) as [path|] eqn:Hp; [|now intros [= <- <-]].
  destruct (String.eqb path ""); [now intros [= <- <-]|].
  destruct (ai_cloth_analysis w (textile_combo s) path)
    as [[[[rp c] ci] v]|e]; [|now intros [= <- <-]].
  destruct (execute_insert _ _ _ _ _ _ _ _); [|now intros [= <- <-]].
  unfold conn_commit. destruct (storage w); intros [= <- <-]; simpl; auto.
Qed.

(** A run that got to the commit: either the database took the write and
    nothing was raised, or the commit raised. *)
Lemma commit_outcome (w : world) (s s2 : gui) :
  storage w <> ExecuteRaises ->
  run_analysis_try w s = conn_commit w s2 ->
  (storage_ok w = true /\ run_analysis_try w s = (Ok tt, set_stored s2) /\
   run_analysis w s = set_stored s2) \/
  (storage w = CommitRaises /\
   run_analysis_try w s = (Raise Sqlite3Error, s2) /\
   run_analysis w s = showerror (fst input_error) (snd input_error) s2).
Proof.
  intros Hne Htry. unfold run_analysis, storage_ok. rewrite Htry.
  unfold conn_commit. destruct (storage w); [left|contradiction|right]; auto.
Qed.

(** A run changes neither the selected textile nor the uploaded path. *)
Lemma run_analysis_keeps_inputs (w : world) (s : gui) :
  textile_combo (run_analysis w s) = textile_combo s /\
  image_path (run_analysis w s) = image_path s.
Proof.
  unfold run_analysis. destruct (run_analysis_try w s) as [r s1] eqn:Htry.
  destruct (run_analysis_try_frame _ _ _ _ Htry) as (H1 & H2 & _).
  destruct r; simpl; auto.
Qed.

(** One run leaves the table as it was or adds one row at its end. *)
Lemma run_analysis_history (w : world) (s : gui) (t : table) :
  history s = Some t ->
  history (run_analysis w s) = Some t \/
  exists path rp ci c v,
    textile_combo s <> "" /\ image_path s = Some path /\ path <> "" /\
    storage w <> ExecuteRaises /\
    ai_cloth_analysis w (textile_combo s) path = Ok (rp, c, ci, v) /\
    history (run_analysis w s) =
      Some (insert_row t (textile_combo s) rp c ci v (strftime (now w))).
Proof.
  intros Hh.
  destruct (run_analysis_cases w s)
    as [(e & s' & _ & Hs' & _ & ->)
       |(t' & path & rp & ci & c & v & Ht & Hp & Hne & Ha & Hh' & Hs & Htry)].
  - left. simpl. congruence.
  - right. exists path, rp, ci, c, v. rewrite Hh in Hh'. injection Hh' as <-.
    repeat split; auto.
    destruct (commit_outcome w s _ Hs Htry) as [(_ & _ & ->)|(_ & _ & ->)];
      reflexivity.
Qed.

Lemma max_rowid_ge (rs : list row) (r : row) :
  In r rs -> id r <= max_rowid rs.
Proof.
  induction rs as [|r0 rs IH]; simpl; [tauto|].
  intros [<-|H]; [|specialize (IH H)]; lia.
Qed.

Lemma app_one_neq {A : Type} (l : list A) (x : A) : l <> (l ++ [x])%list.
Proof.
  intros E. apply (f_equal (@List.length A)) in E.
  rewrite length_app in E. simpl in E. lia.
Qed.




(** ** Determinism *)

(** C7: the analysis reads nothing but the textile table and the image: two
    runs on the same textile and the same image, at different times and with
    different histories, return the same percentage, condition, carbon impact
    and verdict, and the two rows they store agree on all of these. *)
Theorem analysis_deterministic (w1 w2 : world) (tx path : string) :
  open_L w1 path = open_L w2 path ->
  ai_cloth_analysis w1 tx path = ai_cloth_analysis w2 tx path /\
  (forall s t t1 r1,
     textile_combo s = tx -> image_path s = Some path ->
     history s = Some t -> storage_ok w2 = true ->
     history (run_analysis w1 s) = Some t1 -> rows t1 = (rows t ++ [r1])%list ->
     exists t2 r2,
       history (run_analysis w2 (run_analysis w1 s)) = Some t2 /\
       rows t2 = (rows t ++ [r1; r2])%list /\
       textile r2 = textile r1 /\
       recycle_percent r2 = recycle_percent r1 /\
       condition r2 = condition r1 /\
       carbon_impact r2 = carbon_impact r1 /\
       verdict r2 = verdict r1).
Proof.
  intros Ho.
  assert (Hsame : ai_cloth_analysis w1 tx path = ai_cloth_analysis w2 tx path).
  { unfold ai_cloth_analysis, analyze_image. now rewrite Ho. }
  split; [exact Hsame|].
  intros s t t1 r1 <- Hp Hh Hs2 Hh1 Hr1.
  destruct (run_analysis_history w1 s t Hh)
    as [H|(path' & rp & ci & c & v & Ht & Hp' & Hne & _ & Ha & H)].
  { exfalso. rewrite H in Hh1. injection Hh1 as <-.
    exact (app_one_neq _ _ Hr1). }
  rewrite Hp in Hp'. injection Hp' as <-.
  rewrite H in Hh1. injection Hh1 as <-.
  simpl in Hr1. apply app_inv_head in Hr1. injection Hr1 as <-.
  rewrite Hsame in Ha.
  destruct (run_analysis_keeps_inputs w1 s) as [Ek Ep].
  rewrite (run_analysis_success w2 (run_analysis w1 s)
             (insert_row t (textile_combo s) rp c ci v (strftime (now w1)))
             path rp ci c v); rewrite ?Ek, ?Ep; auto.
  unfold after_insert. simpl. rewrite Ek.
  do 2 eexists. split; [reflexivity|]. simpl. rewrite <- app_assoc.
  repeat split.
Qed.

(** Wool analysed twice on the same photograph. *)
Lemma analysis_deterministic_witness :
  exists t2 r1 r2,
    history (run_analysis (world_with (one_row [x82]))
               (run_analysis (world_with (one_row [x82])) (ready "Wool"))) =
      Some t2 /\
    rows t2 = [r1; r2] /\ id r1 = 1 /\ id r2 = 2 /\
    recycle_percent r2 = recycle_percent r1 /\
    carbon_impact r2 = carbon_impact r1 /\
    verdict r2 = verdict r1.
Proof.
  destruct (analysis_deterministic (world_with (one_row [x82]))
              (world_with (one_row [x82])) "Wool" "garment.png" eq_refl)
    as [_ H].
  destruct (H (ready "Wool") empty_table
              (insert_row empty_table "Wool" 56%float "Good"
                 123.20000000000002%float "⚠️ Partially Recyclable"
                 "2024-03-07 09:05:02")
              {| id := 1; textile := "Wool"; recycle_percent := 56;
                 condition := "Good"; carbon_impact := 123.20000000000002;
                 verdict := "⚠️ Partially Recyclable";
                 timestamp := "2024-03-07 09:05:02" |}
              eq_refl eq_refl eq_refl eq_refl eq_refl eq_refl)
    as (t2 & r2 & H1 & H2 & _ & H4 & _ & H6 & H7).
  exists t2, {| id := 1; textile := "Wool"; recycle_percent := 56;
                condition := "Good"; carbon_impact := 123.20000000000002;
                verdict := "⚠️ Partially Recyclable";
                timestamp := "2024-03-07 09:05:02" |}, r2.
  split; [exact H1|]. split; [exact H2|]. split; [reflexivity|].
  split; [|now repeat split].
  vm_compute in H1. injection H1 as <-. simpl in H2. now injection H2 as <-.
Defined.

(** ** The store and its timestamps *)

Lemma digit_cases (n : Z) :
  In (n mod 10) [0; 1; 2; 3; 4; 5; 6; 7; 8; 9].
Proof.
  pose proof (Z.mod_pos_bound n 10 eq_refl) as H. simpl.
  assert (n mod 10 = 0 \/ n mod 10 = 1 \/ n mod 10 = 2 \/ n mod 10 = 3 \/
          n mod 10 = 4 \/ n mod 10 = 5 \/ n mod 10 = 6 \/ n mod 10 = 7 \/
          n mod 10 = 8 \/ n mod 10 = 9) by lia.
  intuition auto.
Qed.

Lemma is_digit_digit (n : Z) : is_digit (digit n) = true.
Proof.
  unfold digit. pose proof (digit_cases n) as H. simpl in H.
  split_in; rewrite <- H; reflexivity.
Qed.

Lemma digit_value (n : Z) : Z.of_N (N_of_ascii (digit n)) - 48 = n mod 10.
Proof.
  unfold digit. pose proof (digit_cases n) as H. simpl in H.
  split_in; rewrite <- H; reflexivity.
Qed.

Lemma in_zrange (len : nat) (start y : Z) :
  start <= y < start + Z.of_nat len -> In y (zrange len start).
Proof.
  revert start. induction len as [|len IH]; intros start H; simpl; [lia|].
  destruct (Z.eq_dec start y) as [E|E]; [now left|].
  right. apply IH. lia.
Qed.

(** A year of four digits is written with exactly these four digits. *)
Lemma str_int_year (y : Z) :
  1000 <= y <= 9999 ->
  str_int y =
    String (digit (y / 1000)) (String (digit (y / 100))
      (String (digit (y / 10)) (String (digit y) EmptyString))).
Proof.
  intros Hy.
  assert (H : forallb
                (fun n =>
                   String.eqb (str_int n)
                     (String (digit (n / 1000)) (String (digit (n / 100))
                        (String (digit (n / 10)) (String (digit n) EmptyString)))))
                (zrange (Z.to_nat 9000) 1000) = true)
    by (vm_compute; reflexivity).
  rewrite forallb_forall in H. apply String.eqb_eq, H, in_zrange. lia.
Qed.

Lemma strftime_layout (d : datetime) :
  valid_datetime d ->
  strftime d =
    String (digit (year d / 1000)) (String (digit (year d / 100))
      (String (digit (year d / 10)) (String (digit (year d))
        ("-" ++ pad2 (month d) ++ "-" ++ pad2 (day d) ++ " " ++
         pad2 (hour d) ++ ":" ++ pad2 (minute d) ++ ":" ++ pad2 (second d))))).
Proof.
  intros (Hy & _). unfold strftime. rewrite (str_int_year _ Hy). reflexivity.
Qed.

Lemma two_digits (n : Z) :
  0 <= n <= 99 -> 10 * (10 * 0 + (n / 10) mod 10) + n mod 10 = n.
Proof. intros H. Z.to_euclidean_division_equations. lia. Qed.

Lemma four_digits (n : Z) :
  1000 <= n <= 9999 ->
  10 * (10 * (10 * (10 * 0 + (n / 1000) mod 10) + (n / 100) mod 10) +
        (n / 10) mod 10) + n mod 10 = n.
Proof. intros H. Z.to_euclidean_division_equations. lia. Qed.

(** The timestamp of a valid clock reading has the layout YYYY-MM-DD HH:MM:SS
    and its columns read back as the six fields, seconds last. *)
Lemma strftime_shape (d : datetime) :
  valid_datetime d ->
  timestamp_shape (strftime d) = true /\
  timestamp_fields (strftime d) =
    [year d; month d; day d; hour d; minute d; second d].
Proof.
  intros Hv. rewrite (strftime_layout d Hv).
  destruct Hv as (Hy & Hm & Hd & Hh & Hmi & Hs). split.
  - unfold timestamp_shape, pad2. simpl. rewrite !is_digit_digit. reflexivity.
  - unfold timestamp_fields, pad2. simpl substring. unfold read_digits.
    rewrite !digit_value.
    rewrite (four_digits (year d)), (two_digits (month d)), (two_digits (day d)),
      (two_digits (hour d)), (two_digits (minute d)), (two_digits (second d))
      by lia.
    reflexivity.
Qed.




(** ** Lookups in the textile table *)

Section Dict.

Context {V : Type}.

Lemma dict_get_missing (d : list (string * V)) (k : string) :
  ~ In k (map fst d) -> dict_get d k = Raise (KeyError k).
Proof.
  induction d as [|[k0 v0] d IH]; simpl; intros H; [reflexivity|].
  destruct (String.eqb_spec k0 k) as [E|_]; [tauto|].
  apply IH. tauto.
Qed.

Lemma dict_get_present (d : list (string * V)) (k : string) :
  In k (map fst d) -> exists v, dict_get d k = Ok v /\ In (k, v) d.
Proof.
  induction d as [|[k0 v0] d IH]; simpl; intros H; [tauto|].
  destruct (String.eqb_spec k0 k) as [E|N].
  - exists v0. subst. auto.
  - destruct H as [H|H]; [contradiction|].
    destruct (IH H) as (v & Hv & Hin). exists v. auto.
Qed.

Lemma dict_get_item (d : list (string * V)) (k : string) (v : V) :
  NoDup (map fst d) -> In (k, v) d -> dict_get d k = Ok v.
Proof.
  induction d as [|[k0 v0] d IH]; simpl; intros Hn H; [tauto|].
  inversion Hn as [|? ? Hnot Hn']; subst.
  destruct H as [[= -> ->]|H].
  - now rewrite String.eqb_refl.
  - destruct (String.eqb_spec k0 k) as [->|_]; [|now apply IH].
    exfalso. apply Hnot. apply (in_map fst) in H. exact H.
Qed.

End Dict.

Lemma combobox_values_nodup : NoDup combobox_values.
Proof.
  unfold combobox_values. simpl.
  repeat (constructor; [simpl; intros H; split_in; discriminate|]).
  constructor.
Qed.

(** X1: the combobox offers eight distinct names, and each of them, and no
    other string, is a key of the textile table with exactly one profile. *)
Theorem textile_table_lookup :
  NoDup combobox_values /\ List.length combobox_values = 8%nat /\
  (forall k p, In (k, p) TEXTILE_DATA <-> dict_get TEXTILE_DATA k = Ok p) /\
  (forall k, In k combobox_values <-> exists p, dict_get TEXTILE_DATA k = Ok p) /\
  (forall k, ~ In k combobox_values ->
             dict_get TEXTILE_DATA k = Raise (KeyError k)).
Proof.
  split; [exact combobox_values_nodup|]. split; [reflexivity|].
  split; [|split].
  - intros k p. split.
    + apply dict_get_item. exact combobox_values_nodup.
    + apply dict_get_textile.
  - intros k. split.
    + intros H. destruct (dict_get_present TEXTILE_DATA k H) as (p & Hp & _).
      now exists p.
    + intros (p & Hp). apply dict_get_textile in Hp.
      apply (in_map fst) in Hp. exact Hp.
  - intros k. apply dict_get_missing.
Qed.

(** X2: [ai_cloth_analysis] looks the textile up before it opens the image:
    an unknown textile raises [KeyError] whatever the image; a known textile
    with an image that does not decode raises the error of [Image.open]; a
    known textile with an image that decodes returns. *)
Theorem ai_cloth_analysis_outcome (w : world) (tx path : string) :
  (~ In tx combobox_values ->
     ai_cloth_analysis w tx path = Raise (KeyError tx)) /\
  (In tx combobox_values -> open_L w path = None ->
     ai_cloth_analysis w tx path = Raise (OSError path)) /\
  (In tx combobox_values -> open_L w path <> None ->
     exists r, ai_cloth_analysis w tx path = Ok r).
Proof.
  unfold ai_cloth_analysis, analyze_image. repeat split.
  - intros H. now rewrite (dict_get_missing TEXTILE_DATA tx H).
  - intros H Ho. destruct (dict_get_present TEXTILE_DATA tx H) as (p & -> & _).
    simpl. now rewrite Ho.
  - intros H Ho. destruct (dict_get_present TEXTILE_DATA tx H) as (p & -> & _).
    simpl. destruct (open_L w path) as [px|]; [|contradiction].
    simpl. destruct (classify (np_mean px)). eauto.
Qed.

(** An unknown textile with an unreadable file: the lookup fails first. *)
Lemma ai_cloth_analysis_outcome_witness :
  ai_cloth_analysis (world_with (one_row [xc8])) "Denim" "notes.txt" =
    Raise (KeyError "Denim") /\
  ai_cloth_analysis (world_with (one_row [xc8])) "Silk" "notes.txt" =
    Raise (OSError "notes.txt") /\
  exists r, ai_cloth_analysis (world_with (one_row [xc8])) "Silk" "garment.png" =
              Ok r.
Proof.
  split; [|split].
  - apply (ai_cloth_analysis_outcome (world_with (one_row [xc8])) "Denim"
             "notes.txt").
    unfold combobox_values. simpl. intros H. split_in; discriminate.
  - apply (ai_cloth_analysis_outcome (world_with (one_row [xc8])) "Silk"
             "notes.txt"); [|reflexivity].
    unfold combobox_values. simpl. tauto.
  - apply (ai_cloth_analysis_outcome (world_with (one_row [xc8])) "Silk"
             "garment.png"); [|discriminate].
    unfold combobox_values. simpl. tauto.
Defined.

(** ** Every press of the button *)

Lemma insert_row_shape (t : table) (tx : string) (rp : float) (cond : string)
    (ci : float) (vd ts : string) :
  exists r,
    insert_row t tx rp cond ci vd ts =
      {| rows := rows t ++ [r]; seq := id r |} /\
    id r = Z.max (seq t) (max_rowid (rows t)) + 1.
Proof.
  exists {| id := Z.max (seq t) (max_rowid (rows t)) + 1; textile := tx;
            recycle_percent := rp; condition := cond; carbon_impact := ci;
            verdict := vd; timestamp := ts |}.
  split; reflexivity.
Qed.








(** X5: whenever a press inserts a row, the text it shows in the window is
    built from the very values of that row and the row's timestamp is the
    clock reading of that press.  When the database takes the write, no
    dialog is shown and the file then holds the whole table of [conn], this
    row last; when the commit raises, the dialog is shown although the result
    is displayed, and the file keeps its table. *)
Theorem display_matches_record (w : world) (s : gui) (t t' : table) (r : row) :
  history s = Some t ->
  history (run_analysis w s) = Some t' -> rows t' = (rows t ++ [r])%list ->
  result_var (run_analysis w s) =
    result_message (textile r) (condition r) (recycle_percent r)
      (carbon_impact r) (verdict r) /\
  textile r = textile_combo s /\
  timestamp r = strftime (now w) /\
  (storage_ok w = true ->
     stored (run_analysis w s) = Some t' /\
     errors_shown (run_analysis w s) = errors_shown s) /\
  (storage_ok w = false ->
     stored (run_analysis w s) = stored s /\
     errors_shown (run_analysis w s) = input_error :: errors_shown s).
Proof.
  intros Hh Hh' Hr.
  destruct (run_analysis_cases w s)
    as [(e & s' & _ & Hs' & _ & Hrun)
       |(t1 & path & rp & ci & c & v & _ & _ & _ & _ & Hh1 & Hs & Htry)].
  - exfalso. rewrite Hrun in Hh'. simpl in Hh'. rewrite Hs', Hh in Hh'.
    injection Hh' as <-. exact (app_one_neq _ _ Hr).
  - rewrite Hh in Hh1. injection Hh1 as <-.
    destruct (commit_outcome w s _ Hs Htry) as [(Hok & _ & Hrun)|(Hc & _ & Hrun)];
      rewrite Hrun in *; unfold after_insert in *; simpl in Hh';
      injection Hh' as <-; simpl in Hr; apply app_inv_head in Hr;
      injection Hr as <-; simpl;
      (split; [reflexivity|]); (split; [reflexivity|]);
      (split; [reflexivity|]); split; intros H; auto.
    + rewrite Hok in H. discriminate H.
    + unfold storage_ok in H. rewrite Hc in H. discriminate H.
Qed.

(** Polyester at brightness 100, the write taken. *)
Lemma display_matches_record_witness :
  result_var (run_analysis (world_with (one_row [x64])) (ready "Polyester")) =
    result_message "Polyester" "Worn" 15 67.5 "❌ Not Recommended" /\
  errors_shown (run_analysis (world_with (one_row [x64])) (ready "Polyester")) =
    [].
Proof.
  destruct (display_matches_record (world_with (one_row [x64]))
              (ready "Polyester") empty_table
              (insert_row empty_table "Polyester" 15%float "Worn" 67.5%float
                 "❌ Not Recommended" "2024-03-07 09:05:02")
              {| id := 1; textile := "Polyester"; recycle_percent := 15;
                 condition := "Worn"; carbon_impact := 67.5;
                 verdict := "❌ Not Recommended";
                 timestamp := "2024-03-07 09:05:02" |}
              eq_refl eq_refl eq_refl) as (H1 & _ & _ & H4 & _).
  split; [exact H1|exact (proj2 (H4 eq_refl))].
Defined.





Lemma session_without_upload (es : list event) (s : gui) :
  Forall (fun e => match e with Upload _ => False | _ => True end) es ->
  image_path (session es s) = image_path s.
Proof.
  revert s. induction es as [|e es IH]; intros s H; [reflexivity|].
  inversion H as [|? ? He Hes]; subst. simpl. rewrite IH by exact Hes.
  destruct e as [choice|chosen|w]; simpl; [reflexivity|contradiction|].
  unfold run_analysis. destruct (run_analysis_try w s) as [r s1] eqn:Htry.
  destruct (run_analysis_try_frame _ _ _ _ Htry) as (_ & H2 & _).
  destruct r; simpl; exact H2.
Qed.

(** X8: until an image has been uploaded the global path is unassigned, so
    whatever else was done since the window opened, a press of the button
    only shows the dialog: the table and the result text stay as they were. *)
Theorem press_before_upload (db : database) (es : list event) (w : world) :
  Forall (fun e => match e with Upload _ => False | _ => True end) es ->
  let s := session es (startup db) in
  history (run_analysis w s) = history s /\
  result_var (run_analysis w s) = result_var s /\
  errors_shown (run_analysis w s) = input_error :: errors_shown s.
Proof.
  intros H s.
  assert (Hp : image_path s = None).
  { unfold s. now rewrite session_without_upload. }
  unfold run_analysis, run_analysis_try. rewrite Hp.
  destruct (String.eqb (textile_combo s) ""); simpl; auto.
Qed.

Lemma press_before_upload_witness :
  history (run_analysis (world_with (one_row [xc8]))
             (session [Select "Linen"; Analyse (world_with (one_row [xc8]))]
                (startup None))) = Some empty_table /\
  errors_shown (run_analysis (world_with (one_row [xc8]))
                  (session [Select "Linen"; Analyse (world_with (one_row [xc8]))]
                     (startup None))) = [input_error; input_error].
Proof.
  destruct (press_before_upload None
              [Select "Linen"; Analyse (world_with (one_row [xc8]))]
              (world_with (one_row [xc8]))) as (H1 & _ & H3).
  - repeat constructor.
  - split; [exact H1|exact H3].
Defined.

(** ** The preview and the analysis *)

(** X9: cancelling the file dialog empties the global path but leaves the
    preview as it was: the window may still show the picture chosen earlier,
    yet the next press of the button only shows the dialog and keeps the
    table as it was. *)
Theorem cancel_keeps_preview (w w' : world) (win : window) :
  let win' := snd (upload_image_callback w "" win) in
  fst (upload_image_callback w "" win) = Ok tt /\
  img_display win' = img_display win /\
  label_text win' = label_text win /\
  image_path (shared win') = Some "" /\
  history (shared (run_analysis_callback w' win')) = history (shared win) /\
  errors_shown (shared (run_analysis_callback w' win')) =
    input_error :: errors_shown (shared win).
Proof.
  simpl. repeat split.
  - unfold run_analysis, run_analysis_try. simpl.
    destruct (String.eqb (textile_combo (shared win)) ""); reflexivity.
  - unfold run_analysis, run_analysis_try. simpl.
    destruct (String.eqb (textile_combo (shared win)) ""); reflexivity.
Qed.



(** ** The thirty-two results *)

(** Every result of the analysis is one entry of the textile table combined
    with one of the four factor and condition pairs. *)
Lemma ai_cloth_analysis_table (w : world) (tx path : string)
    (rp ci : float) (c v : string) :
  ai_cloth_analysis w tx path = Ok (rp, c, ci, v) ->
  exists p f,
    In (tx, p) TEXTILE_DATA /\
    In (f, c) [ (1.0, "Excellent"); (0.8, "Good"); (0.6, "Worn");
                (0.4, "Poor") ]%float /\
    rp = (int_to_float (base p) * f)%float /\
    ci = (int_to_float (base p) * f * carbon p)%float /\
    v = verdict_of (int_to_float (base p) * f)%float.
Proof.
  intros H.
  destruct (ai_cloth_analysis_inv _ _ _ _ H) as (p & px & Hd & Ho).
  destruct (ai_cloth_analysis_total _ _ _ _ _ Hd Ho) as (f & c' & Hf & E).
  rewrite E in H. injection H as <- <- <- <-.
  exists p, f. repeat split; auto. exact (dict_get_textile _ _ Hd).
Qed.

Ltac by_table H :=
  destruct (ai_cloth_analysis_table _ _ _ _ _ _ _ H)
    as (?p & ?f & ?Hp & ?Hf & -> & -> & ->);
  simpl In in *; split_in.

Ltac decide_in :=
  match goal with
  | |- _ <-> _ =>
      split; intros ?H;
      [ try discriminate; simpl; auto 12
      | try reflexivity; exfalso; simpl in *;
        repeat match goal with
               | H : _ \/ _ |- _ => destruct H
               | H : False |- _ => destruct H
               end; discriminate ]
  end.

(** X11: the verdict as a table of textile and condition.  The analysis
    answers Recyclable & Sustainable exactly for Cotton and Linen in Excellent
    or Good condition and for Silk and Wool in Excellent condition, and Not
    Recommended exactly for the four synthetic textiles and for every textile
    in Poor condition. *)
Theorem verdict_table (w : world) (tx path : string)
    (rp ci : float) (c v : string) :
  ai_cloth_analysis w tx path = Ok (rp, c, ci, v) ->
  (v = "✅ Recyclable & Sustainable" <->
   In (tx, c) [ ("Cotton", "Excellent"); ("Cotton", "Good");
                ("Linen", "Excellent"); ("Linen", "Good");
                ("Silk", "Excellent"); ("Wool", "Excellent") ]) /\
  (v = "❌ Not Recommended" <->
   In tx ["Polyester"; "Nylon"; "Acrylic"; "Elastane"] \/ c = "Poor").
Proof.
  intros H. by_table H; (split; decide_in).
Qed.

Lemma verdict_table_witness :
  ("✅ Recyclable & Sustainable" = "✅ Recyclable & Sustainable" <->
   In ("Linen", "Good")
      [ ("Cotton", "Excellent"); ("Cotton", "Good");
        ("Linen", "Excellent"); ("Linen", "Good");
        ("Silk", "Excellent"); ("Wool", "Excellent") ]) /\
  ("✅ Recyclable & Sustainable" = "❌ Not Recommended" <->
   In "Linen" ["Polyester"; "Nylon"; "Acrylic"; "Elastane"] \/ "Good" = "Poor").
Proof.
  exact (verdict_table (world_with (one_row [x82])) "Linen" "garment.png"
           60%float 84%float "Good" "✅ Recyclable & Sustainable" eq_refl).
Defined.

(** X12: the percentage is always a whole number, so the two decimals shown
    in the window are always 00 and the display loses nothing of it. *)
Theorem recycle_percent_whole (w : world) (tx path : string)
    (rp ci : float) (c v : string) :
  ai_cloth_analysis w tx path = Ok (rp, c, ci, v) ->
  rp = int_to_float (int_of_float rp) /\
  format_2f rp = str_int (int_of_float rp) ++ ".00".
Proof.
  intros H. by_table H; split; reflexivity.
Qed.

Lemma recycle_percent_whole_witness :
  39%float = int_to_float (int_of_float 39) /\
  format_2f 39 = str_int (int_of_float 39) ++ ".00".
Proof.
  exact (recycle_percent_whole (world_with (one_row [x64])) "Silk" "garment.png"
           39%float 78%float "Worn" "⚠️ Partially Recyclable" eq_refl).
Defined.

(** ** Brighter images *)

(** Scaling by a baseline and a carbon rate keeps the order of two factors. *)
Lemma carbon_scale_monotone (tx : string) (p : profile) (f1 f2 : float) :
  In (tx, p) TEXTILE_DATA ->
  In (f1, f2)
     [ (1.0, 1.0); (0.8, 1.0); (0.8, 0.8); (0.6, 1.0); (0.6, 0.8); (0.6, 0.6);
       (0.4, 1.0); (0.4, 0.8); (0.4, 0.6); (0.4, 0.4) ]%float ->
  (int_to_float (base p) * f1 * carbon p <=?
   int_to_float (base p) * f2 * carbon p)%float = true /\
  (20 <=? int_to_float (base p) * f1 * carbon p)%float = true /\
  (int_to_float (base p) * f2 * carbon p <=? 154)%float = true.
Proof.
  intros Hp Hf. simpl in Hp, Hf. split_in; repeat split.
Qed.

(** X13: the carbon impact lies between 20 and 154, and for a fixed textile
    it grows with the brightness: the brighter of two images never gets the
    smaller carbon impact. *)
Theorem carbon_impact_monotone (w1 w2 : world) (tx path1 path2 : string)
    (p : profile) (px1 px2 : raster) :
  dict_get TEXTILE_DATA tx = Ok p ->
  open_L w1 path1 = Some px1 -> open_L w2 path2 = Some px2 ->
  (np_mean px1 <=? np_mean px2)%float = true ->
  exists rp1 c1 ci1 v1 rp2 c2 ci2 v2,
    ai_cloth_analysis w1 tx path1 = Ok (rp1, c1, ci1, v1) /\
    ai_cloth_analysis w2 tx path2 = Ok (rp2, c2, ci2, v2) /\
    (ci1 <=? ci2)%float = true /\
    (20 <=? ci1)%float = true /\ (ci2 <=? 154)%float = true.
Proof.
  intros Hd H1 H2 Hle.
  rewrite (ai_cloth_analysis_ok _ _ _ _ _ Hd H1),
    (ai_cloth_analysis_ok _ _ _ _ _ Hd H2).
  do 8 eexists. split; [reflexivity|]. split; [reflexivity|].
  apply (carbon_scale_monotone tx).
  - exact (dict_get_textile _ _ Hd).
  - exact (classify_monotone _ _ Hle).
Qed.

(** Wool, brightness 60 against brightness 200: 61.6 against 154. *)
Lemma carbon_impact_monotone_witness :
  exists rp1 c1 ci1 v1 rp2 c2 ci2 v2,
    ai_cloth_analysis (world_with (one_row [x3c])) "Wool" "garment.png" =
      Ok (rp1, c1, ci1, v1) /\
    ai_cloth_analysis (world_with (one_row [xc8])) "Wool" "garment.png" =
      Ok (rp2, c2, ci2, v2) /\
    (ci1 <=? ci2)%float = true /\
    (20 <=? ci1)%float = true /\ (ci2 <=? 154)%float = true.
Proof.
  apply (carbon_impact_monotone (world_with (one_row [x3c]))
           (world_with (one_row [xc8])) "Wool" "garment.png" "garment.png"
           {| base := 70; carbon := 2.2 |} (one_row [x3c]) (one_row [xc8]));
    reflexivity.
Defined.

(** The larger percentage never gets the worse verdict. *)
Lemma verdict_of_monotone (rp1 rp2 : float) :
  (rp1 <=? rp2)%float = true ->
  (verdict_of rp1 = "✅ Recyclable & Sustainable" ->
   verdict_of rp2 = "✅ Recyclable & Sustainable") /\
  (verdict_of rp2 = "❌ Not Recommended" ->
   verdict_of rp1 = "❌ Not Recommended").
Proof.
  intros H. unfold verdict_of, Py.ge.
  destruct (60 <=? rp1)%float eqn:A1.
  { rewrite (float_leb_trans _ _ _ A1 H). split; [reflexivity|discriminate]. }
  destruct (35 <=? rp1)%float eqn:B1.
  { rewrite (float_leb_trans _ _ _ B1 H).
    destruct (60 <=? rp2)%float; split; discriminate. }
  split; [discriminate|reflexivity].
Qed.

(** X14: for a fixed textile, the brighter of two images never gets the worse
    verdict: if the darker one is Recyclable & Sustainable so is the brighter,
    and if the brighter one is Not Recommended so is the darker. *)
Theorem verdict_monotone (w1 w2 : world) (tx path1 path2 : string)
    (p : profile) (px1 px2 : raster) :
  dict_get TEXTILE_DATA tx = Ok p ->
  open_L w1 path1 = Some px1 -> open_L w2 path2 = Some px2 ->
  (np_mean px1 <=? np_mean px2)%float = true ->
  exists rp1 c1 ci1 v1 rp2 c2 ci2 v2,
    ai_cloth_analysis w1 tx path1 = Ok (rp1, c1, ci1, v1) /\
    ai_cloth_analysis w2 tx path2 = Ok (rp2, c2, ci2, v2) /\
    (v1 = "✅ Recyclable & Sustainable" -> v2 = "✅ Recyclable & Sustainable") /\
    (v2 = "❌ Not Recommended" -> v1 = "❌ Not Recommended").
Proof.
  intros Hd H1 H2 Hle.
  rewrite (ai_cloth_analysis_ok _ _ _ _ _ Hd H1),
    (ai_cloth_analysis_ok _ _ _ _ _ Hd H2).
  do 8 eexists. split; [reflexivity|]. split; [reflexivity|].
  apply verdict_of_monotone, scale_monotone.
  - exact (textile_profiles _ _ Hd).
  - exact (classify_monotone _ _ Hle).
Qed.

(** Cotton, brightness 130 against brightness 200: both recyclable. *)
Lemma verdict_monotone_witness :
  exists rp1 c1 ci1 v1 rp2 c2 ci2 v2,
    ai_cloth_analysis (world_with (one_row [x82])) "Cotton" "garment.png" =
      Ok (rp1, c1, ci1, v1) /\
    ai_cloth_analysis (world_with (one_row [xc8])) "Cotton" "garment.png" =
      Ok (rp2, c2, ci2, v2) /\
    (v1 = "✅ Recyclable & Sustainable" -> v2 = "✅ Recyclable & Sustainable") /\
    (v2 = "❌ Not Recommended" -> v1 = "❌ Not Recommended").
Proof.
  apply (verdict_monotone (world_with (one_row [x82]))
           (world_with (one_row [xc8])) "Cotton" "garment.png" "garment.png"
           {| base := 80; carbon := 1.5 |} (one_row [x82]) (one_row [xc8]));
    reflexivity.
Defined.

(** ** Images without pixels *)

(** No image that opens is without pixels: a file whose pixel data is empty
    is refused like a file that holds no image. *)
Lemma open_L_has_pixels (w : world) (path : string) (px : raster) :
  open_L w path = Some px -> 0 < pixel_count px.
Proof.
  unfold open_L. destruct (file w path) as [px0|]; [|discriminate].
  destruct (Z.ltb_spec 0 (pixel_count px0)); [|discriminate].
  now intros [= <-].
Qed.

Lemma open_L_no_pixels (w : world) (path : string) (px : raster) :
  file w path = Some px -> pixel_count px = 0 -> open_L w path = None.
Proof. intros Hf Hc. unfold open_L. now rewrite Hf, Hc. Qed.

(** ** Keys *)

Lemma zrange_snoc (n : nat) (start : Z) :
  zrange (S n) start = (zrange n start ++ [start + Z.of_nat n])%list.
Proof.
  revert start. induction n as [|n IH]; intros start.
  - simpl. now rewrite Z.add_0_r.
  - change (zrange (S (S n)) start) with (start :: zrange (S n) (start + 1)).
    rewrite IH.
    replace (start + Z.of_nat (S n)) with (start + 1 + Z.of_nat n) by lia.
    reflexivity.
Qed.

Lemma zrange_bounds (n : nat) (start y : Z) :
  In y (zrange n start) -> start <= y < start + Z.of_nat n.
Proof.
  revert start. induction n as [|n IH]; intros start; simpl; [tauto|].
  intros [<-|H]; [lia|]. apply IH in H. lia.
Qed.

Lemma max_rowid_le (rs : list row) (m : Z) :
  0 <= m -> (forall r, In r rs -> id r <= m) -> max_rowid rs <= m.
Proof.
  intros Hm. induction rs as [|r rs IH]; simpl; intros H; [lia|].
  pose proof (H r (or_introl eq_refl)). specialize (IH (fun r0 H0 => H r0 (or_intror H0))).
  lia.
Qed.

Lemma insert_row_numbered (t : table) (tx : string) (rp : float)
    (cond : string) (ci : float) (vd ts : string) :
  numbered t -> numbered (insert_row t tx rp cond ci vd ts).
Proof.
  intros [Hk Hs].
  assert (Hmax : max_rowid (rows t) <= Z.of_nat (List.length (rows t))).
  { apply max_rowid_le; [lia|]. intros r Hr.
    apply (in_map id) in Hr. rewrite Hk in Hr. apply zrange_bounds in Hr. lia. }
  unfold numbered, insert_row. simpl.
  rewrite length_app, map_app, Nat.add_comm. simpl List.length.
  rewrite zrange_snoc, Hk, Hs. simpl map. split; [do 2 f_equal|]; lia.
Qed.

Lemma session_numbered (es : list event) (s : gui) (t0 : table) :
  history s = Some t0 -> numbered t0 ->
  exists t, history (session es s) = Some t /\ numbered t.
Proof.
  revert s t0. induction es as [|e es IH]; intros s t0 Hh Hn.
  - now exists t0.
  - destruct e as [choice|chosen|w]; simpl.
    + exact (IH (select_textile choice s) t0 Hh Hn).
    + exact (IH (upload_image chosen s) t0 Hh Hn).
    + destruct (run_analysis_history w s t0 Hh)
        as [H|(path & rp & ci & c & v & _ & _ & _ & _ & _ & H)].
      * exact (IH _ _ H Hn).
      * apply (IH _ _ H). now apply insert_row_numbered.
Qed.

(** X16: starting from a database without the table, after any sequence of
    events the records carry the keys 1, 2, 3, ... in the order they were
    persisted, and the counter of the table is the number of records. *)
Theorem fresh_database_keys (es : list event) :
  exists t,
    history (session es (startup None)) = Some t /\
    map id (rows t) = zrange (List.length (rows t)) 1 /\
    seq t = Z.of_nat (List.length (rows t)).
Proof.
  apply (session_numbered es (startup None) empty_table); [reflexivity|].
  split; reflexivity.
Qed.

(** Two records: keys 1 and 2. *)
Lemma fresh_database_keys_witness :
  exists t,
    history (session [Select "Wool"; Upload "garment.png";
                      Analyse (world_with (one_row [x82]));
                      Analyse (world_with (one_row [x82]))]
               (startup None)) = Some t /\
    map id (rows t) = [1; 2] /\ seq t = 2.
Proof.
  destruct (fresh_database_keys
              [Select "Wool"; Upload "garment.png";
               Analyse (world_with (one_row [x82]));
               Analyse (world_with (one_row [x82]))]) as (t & Ht & Hk & Hs).
  exists t. split; [exact Ht|].
  vm_compute in Ht. injection Ht as <-. split; reflexivity.
Defined.

Lemma session_keys_increase (es : list event) (s : gui) (t0 : table) :
  history s = Some t0 ->
  exists t added,
    history (session es s) = Some t /\
    rows t = (rows t0 ++ added)%list /\
    Forall (fun r => high_key t0 < id r) added /\
    StronglySorted (fun a b => id a < id b) added.
Proof.
  revert s t0. induction es as [|e es IH]; intros s t0 Hh.
  - exists t0, []. rewrite app_nil_r. repeat split; auto; constructor.
  - destruct e as [choice|chosen|w]; simpl.
    + exact (IH (select_textile choice s) t0 Hh).
    + exact (IH (upload_image chosen s) t0 Hh).
    + destruct (run_analysis_history w s t0 Hh)
        as [H|(path & rp & ci & c & v & _ & _ & _ & _ & _ & H)].
      * exact (IH _ _ H).
      * destruct (insert_row_shape t0 (textile_combo s) rp c ci v
                    (strftime (now w))) as (r & E & Hid).
        rewrite E in H.
        destruct (IH _ _ H) as (t & added & Ht & Hr & Hall & Hsorted).
        assert (Hr1 : id r <= high_key {| rows := rows t0 ++ [r]; seq := id r |}).
        { unfold high_key. simpl. lia. }
        exists t, (r :: added). split; [exact Ht|]. split.
        { rewrite Hr. simpl. now rewrite <- app_assoc. }
        fold (high_key t0) in Hid. split.
        { constructor; [lia|].
          eapply Forall_impl; [|exact Hall]. simpl. intros a Ha. lia. }
        constructor; [exact Hsorted|].
        eapply Forall_impl; [|exact Hall]. simpl. intros a Ha. lia.
Qed.

(** X17: whatever rows the database already held, the records a session adds
    get keys above every key the table had or ever gave out, and each record
    gets a larger key than the one persisted before it: no key is reused. *)
Theorem session_keys_fresh (db : database) (es : list event) (t0 : table) :
  db = Some t0 ->
  exists t added,
    history (session es (startup db)) = Some t /\
    rows t = (rows t0 ++ added)%list /\
    Forall (fun r => seq t0 < id r /\
                     forall r0, In r0 (rows t0) -> id r0 < id r) added /\
    StronglySorted (fun a b => id a < id b) added.
Proof.
  intros ->.
  destruct (session_keys_increase es (startup (Some t0)) t0 eq_refl)
    as (t & added & Ht & Hr & Hall & Hsorted).
  exists t, added. repeat split; auto.
  eapply Forall_impl; [|exact Hall]. unfold high_key. intros r Hlt. split.
  - lia.
  - intros r0 Hr0. pose proof (max_rowid_ge _ _ Hr0). lia.
Qed.

(** A table whose only row has key 3 but which once gave out key 7: the next
    two records get keys 8 and 9. *)
Lemma session_keys_fresh_witness :
  let old := {| id := 3; textile := "Silk"; recycle_percent := 39;
                condition := "Worn"; carbon_impact := 78;
                verdict := "⚠️ Partially Recyclable";
                timestamp := "2023-12-31 23:59:59" |} in
  exists t added,
    history (session [Select "Wool"; Upload "garment.png";
                      Analyse (world_with (one_row [x82]));
                      Analyse (world_with (one_row [x82]))]
               (startup (Some {| rows := [old]; seq := 7 |}))) = Some t /\
    rows t = ([old] ++ added)%list /\
    map id added = [8; 9].
Proof.
  intros old.
  destruct (session_keys_fresh (Some {| rows := [old]; seq := 7 |})
              [Select "Wool"; Upload "garment.png";
               Analyse (world_with (one_row [x82]));
               Analyse (world_with (one_row [x82]))]
              {| rows := [old]; seq := 7 |} eq_refl)
    as (t & added & Ht & Hr & _ & _).
  exists t, added. split; [exact Ht|]. split; [exact Hr|].
  vm_compute in Ht. injection Ht as <-. simpl in Hr.
  injection Hr as <-. reflexivity.
Defined.

(** X18: two valid clock readings get the same timestamp exactly when they
    agree in year, month, day, hour, minute and second: two records persisted
    within the same second carry equal timestamps, and no others do. *)
Theorem timestamp_same_second (d1 d2 : datetime) :
  valid_datetime d1 -> valid_datetime d2 ->
  (strftime d1 = strftime d2 <->
   year d1 = year d2 /\ month d1 = month d2 /\ day d1 = day d2 /\
   hour d1 = hour d2 /\ minute d1 = minute d2 /\ second d1 = second d2).
Proof.
  intros H1 H2. split.
  - intros E. apply (f_equal timestamp_fields) in E.
    rewrite (proj2 (strftime_shape d1 H1)), (proj2 (strftime_shape d2 H2)) in E.
    injection E as -> -> -> -> -> ->. repeat split.
  - intros (Ey & Emo & Ed & Eh & Emi & Es). unfold strftime.
    now rewrite Ey, Emo, Ed, Eh, Emi, Es.
Qed.

(** Two readings half a second apart, and two a second apart. *)
Lemma timestamp_same_second_witness :
  strftime {| year := 2024; month := 3; day := 7; hour := 9; minute := 5;
              second := 2; microsecond := 0 |} =
  strftime {| year := 2024; month := 3; day := 7; hour := 9; minute := 5;
              second := 2; microsecond := 500000 |} /\
  strftime {| year := 2024; month := 3; day := 7; hour := 9; minute := 5;
              second := 2; microsecond := 0 |} <>
  strftime {| year := 2024; month := 3; day := 7; hour := 9; minute := 5;
              second := 3; microsecond := 0 |}.
Proof.
  split.
  - apply (timestamp_same_second
             {| year := 2024; month := 3; day := 7; hour := 9; minute := 5;
                second := 2; microsecond := 0 |}
             {| year := 2024; month := 3; day := 7; hour := 9; minute := 5;
                second := 2; microsecond := 500000 |});
      unfold valid_datetime; simpl; repeat split; lia.
  - intros E.
    apply (timestamp_same_second
             {| year := 2024; month := 3; day := 7; hour := 9; minute := 5;
                second := 2; microsecond := 0 |}
             {| year := 2024; month := 3; day := 7; hour := 9; minute := 5;
                second := 3; microsecond := 0 |}) in E;
      [|unfold valid_datetime; simpl; lia ..].
    simpl in E. lia.
Defined.
